(** * Negotiation training system: session state, concession and pricing

    A shallow embedding of [logger.py] (turn logging, the running maximum
    concession, the price derivation) and of the WebSocket server
    [emotion_engine.py] (environment dials, message dispatch, connection
    life cycle) and of the payload builder of [agent.py], with the
    properties of the system's specification and further properties of the
    code.

    Modelling conventions.
    - Python values that travel through [json.loads] / [json.dump] are
      values of [json]; [None] is [JNull].  A [dict] is an association
      list read at the first binding of a key.
    - Python floats are exact rationals ([Q]): rounding, overflow,
      infinities and NaN are outside the model, and equalities between
      computed prices are stated with [==].
    - Module globals are fields of one [state] record that every function
      threads explicitly; the files of the logger are fields too.
    - An exception is a [Raise] outcome; [try/except] is a [match] on it.
    - [datetime.now()] is an input of the handlers, one reading for each
      message; [websocket.send] is taken to succeed, and a handler returns
      the acknowledgement it sent.
    - [str] of an object that is not a string, [float] of a string and the
      reply generator are parameters of the development.
    - The files that the server only writes ([env_state.json],
      [face_trigger.txt], [time_reset.txt], [conversation_log.jsonl]) and
      the face-detection subprocess are not represented. *)

From Stdlib Require Import ZArith QArith Qminmax String Ascii List Bool Lia Lqa.
Import ListNotations.

Set Warnings "-register-all".
Local Open Scope string_scope.

(** ** Python values *)

Inductive json : Type :=
| JNull
| JBool (b : bool)
| JInt (z : Z)
| JFloat (q : Q)
| JStr (s : string)
| JArr (l : list json)
| JObj (kv : list (string * json)).

Inductive exn : Type := AttributeError | TypeError | ValueError.

Inductive result (A : Type) : Type :=
| Ok (a : A)
| Raise (e : exn).
Arguments Ok {A} a.
Arguments Raise {A} e.

Definition bind {A B : Type} (r : result A) (k : A -> result B) : result B :=
  match r with
  | Ok a => k a
  | Raise e => Raise e
  end.

Notation "x <- r ;; k" := (bind r (fun x => k))
  (at level 61, r at next level, right associativity).

(** [a < b] on floats, as a boolean. *)
Definition Qltb (a b : Q) : bool :=
  match (a ?= b)%Q with
  | Lt => true
  | _ => false
  end.
Arguments Qltb : simpl never.

(** Truth value of a Python object ([bool(v)]). *)
Definition truthy (v : json) : bool :=
  match v with
  | JNull => false
  | JBool b => b
  | JInt z => negb (Z.eqb z 0)
  | JFloat q => negb (Qeq_bool q 0)
  | JStr s => negb (String.eqb s "")
  | JArr l => match l with [] => false | _ => true end
  | JObj kv => match kv with [] => false | _ => true end
  end.

(** [a or b]. *)
Definition py_or (a b : json) : json := if truthy a then a else b.

(** [d.get(k, dflt)] and [k in d] on the bindings of a dict. *)
Fixpoint dict_get (k : string) (kv : list (string * json)) (dflt : json) : json :=
  match kv with
  | [] => dflt
  | (k', v) :: rest => if String.eqb k k' then v else dict_get k rest dflt
  end.

Fixpoint dict_mem (k : string) (kv : list (string * json)) : bool :=
  match kv with
  | [] => false
  | (k', _) :: rest => if String.eqb k k' then true else dict_mem k rest
  end.

(** [v.get(k, dflt)] on an arbitrary object: only a dict has [get]. *)
Definition py_get (v : json) (k : string) (dflt : json) : result json :=
  match v with
  | JObj kv => Ok (dict_get k kv dflt)
  | _ => Raise AttributeError
  end.

(** The numeric value of an object that passes
    [isinstance(v, (int, float))]; [bool] is a subclass of [int]. *)
Definition as_number (v : json) : option Q :=
  match v with
  | JBool b => Some (if b then 1 else 0)%Q
  | JInt z => Some (inject_Z z)
  | JFloat q => Some q
  | _ => None
  end.

(** An optional float as a Python value. *)
Definition of_float (o : option Q) : json :=
  match o with
  | Some q => JFloat q
  | None => JNull
  end.

(** [str.isspace] on the ASCII range, and [str.strip()]. *)
Definition isspace (c : ascii) : bool :=
  let n := nat_of_ascii c in
  ((9 <=? n) && (n <=? 13) || (28 <=? n) && (n <=? 32))%nat.

Fixpoint lstrip (s : string) : string :=
  match s with
  | EmptyString => EmptyString
  | String c r => if isspace c then lstrip r else s
  end.

Fixpoint rstrip (s : string) : string :=
  match s with
  | EmptyString => EmptyString
  | String c r =>
      match rstrip r with
      | EmptyString => if isspace c then EmptyString else String c EmptyString
      | r' => String c r'
      end
  end.

Definition strip (s : string) : string := rstrip (lstrip s).

(** [int(x)] on a float: truncation toward zero. *)
Definition py_int (q : Q) : Z := Z.quot (Qnum q) (Z.pos (Qden q)).

(** ** State *)

(** [EnvironmentState]: five integer dials. *)
Record EnvironmentState : Type := mkEnv {
  noise_level : Z;
  crowd_density : Z;
  lighting_level : Z;
  visual_distractions : Z;
  time_pressure : Z
}.

(** What [open] / [json.load] finds at a path. [Corrupt] stands for any
    content on which reading or decoding raises. *)
Inductive file : Type :=
| Missing
| Corrupt
| Content (v : json).

(** The globals of the server and of the logger, and the logger's files.
    [meta_writable] and [log_writable] tell whether opening the meta file,
    respectively the turn log, for writing succeeds. *)
Record state : Type := mkState {
  (* emotion_engine.py *)
  env_state : EnvironmentState;
  dialogue_concession : Q;
  conversation_history : list json;
  current_item_info : json;
  (* logger.py *)
  _conversation_history : list string;
  _history_max_concession : option Q;
  (* files *)
  FACE_RESULT : file;
  META : file;
  TURN_LOG : list json;
  meta_writable : bool;
  log_writable : bool
}.

Definition set_env_state (e : EnvironmentState) (s : state) : state :=
  mkState e (dialogue_concession s) (conversation_history s)
    (current_item_info s) (_conversation_history s)
    (_history_max_concession s) (FACE_RESULT s) (META s) (TURN_LOG s)
    (meta_writable s) (log_writable s).

Definition set_dialogue_concession (d : Q) (s : state) : state :=
  mkState (env_state s) d (conversation_history s)
    (current_item_info s) (_conversation_history s)
    (_history_max_concession s) (FACE_RESULT s) (META s) (TURN_LOG s)
    (meta_writable s) (log_writable s).

Definition set_conversation_history (h : list json) (s : state) : state :=
  mkState (env_state s) (dialogue_concession s) h
    (current_item_info s) (_conversation_history s)
    (_history_max_concession s) (FACE_RESULT s) (META s) (TURN_LOG s)
    (meta_writable s) (log_writable s).

Definition set_current_item_info (i : json) (s : state) : state :=
  mkState (env_state s) (dialogue_concession s) (conversation_history s)
    i (_conversation_history s)
    (_history_max_concession s) (FACE_RESULT s) (META s) (TURN_LOG s)
    (meta_writable s) (log_writable s).

Definition set__conversation_history (h : list string) (s : state) : state :=
  mkState (env_state s) (dialogue_concession s) (conversation_history s)
    (current_item_info s) h
    (_history_max_concession s) (FACE_RESULT s) (META s) (TURN_LOG s)
    (meta_writable s) (log_writable s).

Definition set__history_max_concession (h : option Q) (s : state) : state :=
  mkState (env_state s) (dialogue_concession s) (conversation_history s)
    (current_item_info s) (_conversation_history s)
    h (FACE_RESULT s) (META s) (TURN_LOG s)
    (meta_writable s) (log_writable s).

Definition set_META (f : file) (s : state) : state :=
  mkState (env_state s) (dialogue_concession s) (conversation_history s)
    (current_item_info s) (_conversation_history s)
    (_history_max_concession s) (FACE_RESULT s) f (TURN_LOG s)
    (meta_writable s) (log_writable s).

Definition set_TURN_LOG (l : list json) (s : state) : state :=
  mkState (env_state s) (dialogue_concession s) (conversation_history s)
    (current_item_info s) (_conversation_history s)
    (_history_max_concession s) (FACE_RESULT s) (META s) l
    (meta_writable s) (log_writable s).

(** The analysis worker and the file system act from outside: the result
    file is overwritten and the two permissions may change. *)
Definition set_outside (f : file) (mw lw : bool) (s : state) : state :=
  mkState (env_state s) (dialogue_concession s) (conversation_history s)
    (current_item_info s) (_conversation_history s)
    (_history_max_concession s) f (META s) (TURN_LOG s) mw lw.

(** A fresh server process over what is on disk. *)
Definition boot (face meta : file) (log : list json) (mw lw : bool) : state :=
  mkState (mkEnv 0 0 0 0 0) 0 [] JNull [] None face meta log mw lw.

Section Negotiation.

(** Two builtins are left abstract: the rendering [str(v)] of an object
    that is not a string, and the parsing of a string by [float(s)]
    ([None] when it raises [ValueError]). *)
Variable py_str : json -> string.
Variable py_float_of_str : string -> option Q.

(** The reply generator [agent.call_chatgpt_with_record], an external
    collaborator: its reply to a record, [None] when the call raises. *)
Variable call_chatgpt_with_record : json -> option string.

(** [str(v)]. *)
Definition str (v : json) : string :=
  match v with
  | JStr s => s
  | _ => py_str v
  end.

(** [float(v)]. *)
Definition float (v : json) : result Q :=
  match v with
  | JStr s =>
      match py_float_of_str s with
      | Some q => Ok q
      | None => Raise ValueError
      end
  | _ =>
      match as_number v with
      | Some q => Ok q
      | None => Raise TypeError
      end
  end.

(** ** logger.py *)

Definition load_face_result (s : state) : json :=
  match FACE_RESULT s with
  | Content data => data
  | Missing => JNull
  | Corrupt => JNull
  end.

(** The value read from the meta file when the cache is unset; every
    failure of the [try] block leaves [None]. *)
Definition meta_value (f : file) : option Q :=
  match f with
  | Content (JObj kv) => as_number (dict_get "history_max_concession" kv JNull)
  | Content _ => None
  | Missing => None
  | Corrupt => None
  end.

Definition _load_history_max_from_file (s : state) : state :=
  match _history_max_concession s with
  | Some _ => s
  | None => set__history_max_concession (meta_value (META s)) s
  end.

Definition _save_history_max_to_file (s : state) : state :=
  if meta_writable s then
    set_META
      (Content (JObj [("history_max_concession",
                       of_float (_history_max_concession s))])) s
  else s.

Definition reset_history_max_concession (s : state) : state :=
  _save_history_max_to_file (set__history_max_concession (Some 0%Q) s).

Definition log_item_update (item_info env : json) (now : string) (s : state)
  : state :=
  let record :=
    JObj [("timestamp", JStr now);
          ("event", JStr "item_update");
          ("item_info", item_info);
          ("environment", env)] in
  if log_writable s then set_TURN_LOG (TURN_LOG s ++ [record]) s else s.

Definition reset_history_for_new_item (s : state) : state :=
  let s := set__conversation_history [] s in
  let s := set__history_max_concession (Some 0%Q) s in
  _save_history_max_to_file s.

(** The arithmetic of step 4 of [log_turn], after the three conversions:
    the concession amount and the suggested price. *)
Definition price_step (max_price min_price p : Q) : Q * Q :=
  let gap := (max_price - min_price)%Q in
  let gap := if Qltb gap 0 then 0%Q else gap in
  let concession_amount := (gap * (p / 100))%Q in
  let suggested_price := (max_price - concession_amount)%Q in
  let suggested_price :=
    if Qltb suggested_price min_price then min_price else suggested_price in
  (concession_amount, suggested_price).

(** The [try] block of step 4. *)
Definition price_try (item_info : json) (h : option Q) : result (Q * Q) :=
  a <- py_get item_info "max_price" (JInt 0) ;;
  max_price <- float a ;;
  b <- py_get item_info "min_price" (JInt 0) ;;
  min_price <- float b ;;
  p <- match h with Some p => Ok p | None => Raise TypeError end ;;
  Ok (price_step max_price min_price p).
Arguments price_try : simpl never.

(** [log_turn]: the state afterwards and the returned record ([JNull] for
    the bare [return] on a blank utterance). *)
Definition log_turn (utterance : string) (env item_info : json)
    (now : string) (s : state) : state * json :=
  let text := strip utterance in
  if String.eqb text "" then (s, JNull) else
  (* 1) update history *)
  let s := set__conversation_history (_conversation_history s ++ [text]) s in
  (* 2) latest face statistics *)
  let face_result := load_face_result s in
  let final_concession :=
    match face_result with
    | JObj kv => dict_get "final_concession" kv JNull
    | _ => JNull
    end in
  (* 3) global max concession *)
  let s := _load_history_max_from_file s in
  let s :=
    match as_number final_concession with
    | Some fc =>
        if match _history_max_concession s with
           | None => true
           | Some h => Qltb h fc
           end
        then _save_history_max_to_file
               (set__history_max_concession (Some fc) s)
        else s
    | None => s
    end in
  (* 4) concession amount and suggested price *)
  let '(concession_amount, suggested_price) :=
    if truthy item_info then
      match price_try item_info (_history_max_concession s) with
      | Ok (c, p) => (Some c, Some p)
      | Raise _ => (None, None)
      end
    else (None, None) in
  (* 5) record *)
  let record :=
    JObj [("timestamp", JStr now);
          ("utterance", JStr text);
          ("history", JArr (map JStr (_conversation_history s)));
          ("environment", env);
          ("item_info", item_info);
          ("face_result", face_result);
          ("final_concession", final_concession);
          ("history_max_concession", of_float (_history_max_concession s));
          ("concession_amount", of_float concession_amount);
          ("suggested_price", of_float suggested_price)] in
  let s := if log_writable s then set_TURN_LOG (TURN_LOG s ++ [record]) s
           else s in
  (s, record).

(** ** emotion_engine.py *)

(** [int(max(0, min(10, v)))]; [min] and [max] compare with [<] and [>]
    and raise [TypeError] on an object that is not a number. *)
Definition clamp_dial (v : json) : result Z :=
  match as_number v with
  | Some x =>
      let m := if Qltb x 10 then x else 10%Q in
      let c := if Qltb 0 m then m else 0%Q in
      Ok (py_int c)
  | None => Raise TypeError
  end.

(** One [if key in data: self.key = ...] of [update_from_dict], run only
    if nothing was raised before it. *)
Definition assign_dial (key : string)
    (set : Z -> EnvironmentState -> EnvironmentState)
    (data : list (string * json)) (r : EnvironmentState * result unit)
  : EnvironmentState * result unit :=
  match r with
  | (e, Ok _) =>
      if dict_mem key data then
        match clamp_dial (dict_get key data JNull) with
        | Ok z => (set z e, Ok tt)
        | Raise x => (e, Raise x)
        end
      else (e, Ok tt)
  | (e, Raise x) => (e, Raise x)
  end.

Definition set_noise_level (z : Z) (e : EnvironmentState) :=
  mkEnv z (crowd_density e) (lighting_level e) (visual_distractions e)
    (time_pressure e).
Definition set_crowd_density (z : Z) (e : EnvironmentState) :=
  mkEnv (noise_level e) z (lighting_level e) (visual_distractions e)
    (time_pressure e).
Definition set_lighting_level (z : Z) (e : EnvironmentState) :=
  mkEnv (noise_level e) (crowd_density e) z (visual_distractions e)
    (time_pressure e).
Definition set_visual_distractions (z : Z) (e : EnvironmentState) :=
  mkEnv (noise_level e) (crowd_density e) (lighting_level e) z
    (time_pressure e).

Definition update_from_dict (data : list (string * json))
    (e : EnvironmentState) : EnvironmentState * result unit :=
  assign_dial "visual_distractions" set_visual_distractions data
    (assign_dial "lighting_level" set_lighting_level data
       (assign_dial "crowd_density" set_crowd_density data
          (assign_dial "noise_level" set_noise_level data (e, Ok tt)))).

Definition to_dict (e : EnvironmentState) : json :=
  JObj [("noise_level", JInt (noise_level e));
        ("crowd_density", JInt (crowd_density e));
        ("lighting_level", JInt (lighting_level e));
        ("visual_distractions", JInt (visual_distractions e));
        ("time_pressure", JInt (time_pressure e))].

Definition append_history (utterance now : string) (s : state) : state :=
  let record :=
    JObj [("index", JInt (Z.of_nat (List.length (conversation_history s))));
          ("timestamp", JStr now);
          ("utterance", JStr utterance);
          ("environment", to_dict (env_state s))] in
  set_conversation_history (conversation_history s ++ [record]) s.

(** A handler ends with the acknowledgement it sent, if any, or with the
    exception that left it. *)
Definition handled : Type := state * result (option json).

Definition handle_env_update (data : list (string * json)) (s : state)
  : handled :=
  let '(e, r) := update_from_dict data (env_state s) in
  let s := set_env_state e s in
  match r with
  | Raise x => (s, Raise x)
  | Ok _ =>
      (s, Ok (Some (JObj [("type", JStr "env_received");
                          ("status", JStr "ok");
                          ("env", to_dict (env_state s))])))
  end.

(** [min(a, b)] of Python on two floats. *)
Definition py_min (a b : Q) : Q := if Qltb b a then b else a.

(** The call [logger.log_turn(utterance, env_state.to_dict(),
    current_item_info)] of [handle_user_utterance].  Every step of
    [log_turn] that can raise sits in a [try] of its own, so the [except]
    around this call is never taken. *)
Definition user_turn (utterance now : string) (s : state) : state * json :=
  log_turn utterance (to_dict (env_state s)) (current_item_info s) now s.

Definition handle_user_utterance (data : list (string * json))
    (now : string) (s : state) : handled :=
  match py_or (dict_get "utterance" data JNull) (JStr "") with
  | JStr u =>
      let utterance := strip u in
      if String.eqb utterance "" then (s, Ok None) else
      let '(s, record) := user_turn utterance now s in
      let s := append_history utterance now s in
      let s :=
        set_dialogue_concession
          (py_min (dialogue_concession s + 5) 50)%Q s in
      let agent_reply :=
        match record with
        | JObj _ => call_chatgpt_with_record record
        | _ => None
        end in
      let ack :=
        ([("type", JStr "utterance_received");
          ("status", JStr "ok");
          ("echo", JStr utterance);
          ("dialogue_concession", JFloat (dialogue_concession s))]
         ++ match agent_reply with
            | Some r => [("agent_reply", JStr r)]
            | None => []
            end)%list in
      (s, Ok (Some (JObj ack)))
  | _ => (s, Raise AttributeError)
  end.

(** The dict literal of [handle_item_selected], evaluated field by field. *)
Definition item_of (data : list (string * json)) : result json :=
  let get k := dict_get k data JNull in
  let item_id := str (py_or (py_or (get "itemId") (get "item_id")) (JStr "")) in
  item_name <-
    match py_or (py_or (get "itemName") (get "item_name")) (JStr "") with
    | JStr n => Ok (strip n)
    | _ => Raise AttributeError
    end ;;
  max_price <- float (py_or (py_or (get "maxPrice") (get "max_price")) (JInt 0)) ;;
  min_price <- float (py_or (py_or (get "MinPrice") (get "min_price")) (JInt 0)) ;;
  Ok (JObj [("item_id", JStr item_id);
            ("item_name", JStr item_name);
            ("max_price", JFloat max_price);
            ("min_price", JFloat min_price)]).

Definition handle_item_selected (data : list (string * json))
    (now : string) (s : state) : handled :=
  match item_of data with
  | Raise x => (s, Raise x)
  | Ok item =>
      let s := set_current_item_info item s in
      let s := reset_history_for_new_item s in
      let s := log_item_update (current_item_info s) (to_dict (env_state s))
                 now s in
      (s, Ok (Some (JObj [("type", JStr "item_received");
                          ("status", JStr "ok");
                          ("item", current_item_info s)])))
  end.

(** An inbound frame: text that [json.loads] rejects, or the decoded
    value. *)
Inductive wire : Type :=
| NotJson
| Json (v : json).

Definition is_str (v : json) (t : string) : bool :=
  match v with
  | JStr x => String.eqb x t
  | _ => false
  end.

Definition process_message (message : wire) (now : string) (s : state)
  : handled :=
  match message with
  | NotJson => (s, Ok None)
  | Json (JObj data) =>
      let msg_type := dict_get "type" data JNull in
      if is_str msg_type "env_update" then handle_env_update data s
      else if is_str msg_type "user_utterance" then
        handle_user_utterance data now s
      else if is_str msg_type "item_selected" then
        handle_item_selected data now s
      else (s, Ok None)
  | Json _ => (s, Raise AttributeError)
  end.

(** The receive loop of [client_handler]: it ends when the client closes
    the connection ([Ok]) or when a message raises. *)
Fixpoint serve (msgs : list (string * wire)) (s : state)
  : state * result unit :=
  match msgs with
  | [] => (s, Ok tt)
  | (now, m) :: rest =>
      match process_message m now s with
      | (s', Ok _) => serve rest s'
      | (s', Raise x) => (s', Raise x)
      end
  end.

(** [client_handler]: the loop, then the [finally] block. *)
Definition client_handler (msgs : list (string * wire)) (s : state)
  : state * result unit :=
  let '(s', r) := serve msgs s in
  (reset_history_max_concession s', r).

(** ** The process as a transition system *)

Inductive event : Type :=
| Message (now : string) (m : wire)
| Disconnect
| Outside (f : file) (mw lw : bool).

Definition step (ev : event) (s : state) : state :=
  match ev with
  | Message now m => fst (process_message m now s)
  | Disconnect => reset_history_max_concession s
  | Outside f mw lw => set_outside f mw lw s
  end.

Definition run (evs : list event) (s : state) : state :=
  fold_left (fun s ev => step ev s) evs s.

(** The states a server process can be in. *)
Definition reachable (s : state) : Prop :=
  exists face meta log mw lw evs, s = run evs (boot face meta log mw lw).

(** ** Views used by the statements *)

(** The value that [_load_history_max_from_file] returns: the cache, or
    what the meta file holds when the cache is unset. *)
Definition history_max (s : state) : option Q :=
  match _history_max_concession s with
  | Some v => Some v
  | None => meta_value (META s)
  end.

(** The [final_concession] that a turn reads from the result file. *)
Definition final_concession_read (s : state) : json :=
  match load_face_result s with
  | JObj kv => dict_get "final_concession" kv JNull
  | _ => JNull
  end.

(** [record.get(k)] on a record that may be [None]. *)
Definition record_get (record : json) (k : string) : json :=
  match record with
  | JObj kv => dict_get k kv JNull
  | _ => JNull
  end.

(** The dict that [handle_item_selected] stores. *)
Definition item_dict (id name : string) (max_price min_price : Q) : json :=
  JObj [("item_id", JStr id);
        ("item_name", JStr name);
        ("max_price", JFloat max_price);
        ("min_price", JFloat min_price)].

(** The price formula of the specification. *)
Definition spec_price (max_price min_price h : Q) : Q :=
  Qmax min_price (max_price - Qmax 0 (max_price - min_price) * (h / 100)).


Definition dial_ok (z : Z) : Prop := (0 <= z <= 10)%Z.

Definition dials_in_range (e : EnvironmentState) : Prop :=
  dial_ok (noise_level e) /\ dial_ok (crowd_density e) /\
  dial_ok (lighting_level e) /\ dial_ok (visual_distractions e) /\
  dial_ok (time_pressure e).



(** Step 4 of [log_turn]: the optional concession amount and price. *)
Definition priced (item_info : json) (h : option Q) : option Q * option Q :=
  if truthy item_info then
    match price_try item_info h with
    | Ok (c, p) => (Some c, Some p)
    | Raise _ => (None, None)
    end
  else (None, None).

(** The text of a message that [process_message] takes as a user turn:
    type [user_utterance] and an utterance that is a string and not
    blank. *)
Definition turn_text (m : wire) : option string :=
  match m with
  | Json (JObj data) =>
      if is_str (dict_get "type" data JNull) "user_utterance" then
        match py_or (dict_get "utterance" data JNull) (JStr "") with
        | JStr u => if String.eqb (strip u) "" then None else Some (strip u)
        | _ => None
        end
      else None
  | _ => None
  end.

(** The state after each of the three handlers has run to its end. *)
Definition after_env_update (data : list (string * json)) (s : state) : state :=
  set_env_state (fst (update_from_dict data (env_state s))) s.

Definition after_user_turn (text now : string) (s : state) : state :=
  let s1 := append_history text now (fst (user_turn text now s)) in
  set_dialogue_concession (py_min (dialogue_concession s1 + 5) 50)%Q s1.

Definition after_item (item : json) (now : string) (s : state) : state :=
  let s1 := reset_history_for_new_item (set_current_item_info item s) in
  log_item_update (current_item_info s1) (to_dict (env_state s1)) now s1.

(** What a delivered message does to the state. *)
Inductive delivered (now : string) (s : state) : wire -> state -> Prop :=
| d_env data :
    turn_text (Json (JObj data)) = None ->
    delivered now s (Json (JObj data)) (after_env_update data s)
| d_turn m text :
    turn_text m = Some text ->
    delivered now s m (after_user_turn text now s)
| d_item data item :
    turn_text (Json (JObj data)) = None ->
    is_str (dict_get "type" data JNull) "item_selected" = true ->
    item_of data = Ok item ->
    delivered now s (Json (JObj data)) (after_item item now s)
| d_drop m :
    turn_text m = None ->
    delivered now s m s.


(** The events that are a user turn, and their number in a trace. *)
Definition is_turn (ev : event) : bool :=
  match ev with
  | Message _ m => match turn_text m with Some _ => true | None => false end
  | _ => false
  end.

Definition turns (evs : list event) : nat :=
  List.length (filter is_turn evs).

(** A well-formed [user_utterance] message. *)
Definition utterance_message (now_u : string * string) : event :=
  Message (fst now_u)
    (Json (JObj [("type", JStr "user_utterance");
                 ("utterance", JStr (snd now_u))])).

(** A fresh server process started over the files that [s] leaves. *)
Definition restart (s : state) : state :=
  boot (FACE_RESULT s) (META s) (TURN_LOG s) (meta_writable s)
    (log_writable s).

(** ** The rest of logger.py, and agent.py *)




(** ** More views of a trace *)

(** Messages of type [item_selected] and of type [env_update]. *)
Definition is_selection (ev : event) : bool :=
  match ev with
  | Message _ (Json (JObj data)) =>
      is_str (dict_get "type" data JNull) "item_selected"
  | _ => false
  end.

Definition is_env_update (ev : event) : bool :=
  match ev with
  | Message _ (Json (JObj data)) =>
      is_str (dict_get "type" data JNull) "env_update"
  | _ => false
  end.


(** An event that leaves the meta file writable. *)
Definition keeps_meta_writable (ev : event) : bool :=
  match ev with
  | Outside _ mw _ => mw
  | _ => true
  end.

(** The running maximum is on disk: the cache is unset or the meta file
    holds its value. *)
Definition persisted (s : state) : Prop :=
  _history_max_concession s = None \/
  meta_value (META s) = _history_max_concession s.

(** The meta file is writable and holds the running maximum. *)
Definition on_disk (s : state) : Prop :=
  meta_writable s = true /\ persisted s.


(** ** Sample inputs *)

(** Stand-ins for the abstract builtins in closed examples, whose inputs
    never reach [str] of a non-string or [float] of a string; the reply
    generator of the examples always fails. *)
Definition str_unused : json -> string := fun _ => "".
Definition float_unused : string -> option Q := fun _ => None.
Definition agent_down : json -> option string := fun _ => None.

(** A fresh process with no result file and no meta file. *)
Definition fresh_disk : state := boot Missing Missing [] true true.

Definition select_lamp : event :=
  Message "10:00:00"
    (Json (JObj [("type", JStr "item_selected");
                 ("itemId", JStr "A1");
                 ("itemName", JStr "lamp");
                 ("max_price", JInt 100);
                 ("min_price", JInt 20)])).


(** The analysis worker writes a result with the given final concession. *)
Definition worker_reports (fc : Q) : event :=
  Outside (Content (JObj [("primary_expression", JStr "Neutral");
                          ("final_concession", JFloat fc)])) true true.

(** ** Basic facts *)

Lemma Qltb_true (a b : Q) : Qltb a b = true <-> (a < b)%Q.
Proof.
  unfold Qltb. rewrite Qlt_alt.
  destruct (a ?= b)%Q; split; congruence.
Qed.

Lemma Qltb_false (a b : Q) : Qltb a b = false <-> (b <= a)%Q.
Proof.
  split; intro H.
  - apply Qnot_lt_le. intro L. apply Qltb_true in L. congruence.
  - destruct (Qltb a b) eqn:E; trivial.
    apply Qltb_true in E. exfalso. revert E. apply Qle_not_lt. exact H.
Qed.

Lemma rstrip_cons (c : ascii) (r : string) :
  rstrip (String c r) =
  match rstrip r with
  | EmptyString => if isspace c then EmptyString else String c EmptyString
  | r' => String c r'
  end.
Proof. reflexivity. Qed.

Lemma rstrip_idem (s : string) : rstrip (rstrip s) = rstrip s.
Proof.
  induction s as [|c r IH]; trivial.
  rewrite rstrip_cons.
  destruct (rstrip r) as [|c' r'] eqn:E.
  - destruct (isspace c) eqn:Ec; trivial.
    rewrite rstrip_cons. simpl. now rewrite Ec.
  - rewrite rstrip_cons, IH. reflexivity.
Qed.

Lemma lstrip_head (s : string) :
  lstrip s = "" \/ exists c r, lstrip s = String c r /\ isspace c = false.
Proof.
  induction s as [|c r IH]; simpl; auto.
  destruct (isspace c) eqn:E; auto.
  right. now exists c, r.
Qed.

Lemma strip_idem (s : string) : strip (strip s) = strip s.
Proof.
  unfold strip.
  destruct (lstrip_head s) as [E | (c & r & E & Hc)]; rewrite E; trivial.
  assert (H : exists r', rstrip (String c r) = String c r').
  { simpl. destruct (rstrip r); [rewrite Hc|]; eauto. }
  destruct H as (r' & H).
  assert (L : lstrip (rstrip (String c r)) = rstrip (String c r)).
  { rewrite H. simpl. now rewrite Hc. }
  rewrite L. apply rstrip_idem.
Qed.

Lemma eqb_empty_false (t : string) : t <> "" -> String.eqb t "" = false.
Proof. intro H. apply String.eqb_neq. exact H. Qed.

(** ** What [log_turn] touches *)

(** The global after step 3 of [log_turn]. *)
Definition raised_max (s : state) : option Q :=
  match as_number (final_concession_read s) with
  | Some fc =>
      match history_max s with
      | None => Some fc
      | Some h => if Qltb h fc then Some fc else Some h
      end
  | None => history_max s
  end.

(** Case analysis on the tests that [log_turn] performs. *)
Ltac split_turn :=
  repeat match goal with
         | |- context [meta_value ?f] => destruct (meta_value f); simpl
         | |- context [Qltb ?a ?b] => destruct (Qltb a b); simpl
         | |- context [if ?b then _ else _] => destruct b; simpl
         | |- context [match price_try ?a ?b with _ => _ end] =>
             destruct (price_try a b) as [[? ?]|]; simpl
         end.

Lemma log_turn_blank (u : string) (env item : json) (now : string)
    (s : state) :
  strip u = "" -> log_turn u env item now s = (s, JNull).
Proof. intro H. unfold log_turn. now rewrite H. Qed.

Lemma log_turn_frame (u : string) (env item : json) (now : string)
    (s : state) :
  let s' := fst (log_turn u env item now s) in
  env_state s' = env_state s /\
  dialogue_concession s' = dialogue_concession s /\
  conversation_history s' = conversation_history s /\
  current_item_info s' = current_item_info s /\
  FACE_RESULT s' = FACE_RESULT s /\
  meta_writable s' = meta_writable s /\
  log_writable s' = log_writable s.
Proof.
  unfold log_turn.
  destruct (String.eqb (strip u) ""); [simpl; tauto|].
  destruct s as [e d ch it lh hm fr mt tl mw lw].
  unfold _load_history_max_from_file, _save_history_max_to_file,
    load_face_result; simpl.
  destruct hm as [h|]; simpl;
    destruct (as_number _) as [fc|]; simpl;
    split_turn; tauto.
Qed.

Lemma log_turn_max (u : string) (env item : json) (now : string)
    (s : state) :
  strip u <> "" ->
  _history_max_concession (fst (log_turn u env item now s)) = raised_max s.
Proof.
  intro N. unfold log_turn. rewrite (eqb_empty_false _ N).
  destruct s as [e d ch it lh hm fr mt tl mw lw].
  unfold raised_max, history_max, final_concession_read,
    _load_history_max_from_file, _save_history_max_to_file,
    load_face_result; simpl.
  destruct hm as [h|]; simpl;
    destruct (as_number _) as [fc|]; simpl;
    split_turn; reflexivity.
Qed.

Lemma log_turn_record (u : string) (env item : json) (now : string)
    (s : state) :
  strip u <> "" ->
  snd (log_turn u env item now s) =
  JObj [("timestamp", JStr now);
        ("utterance", JStr (strip u));
        ("history", JArr (map JStr (_conversation_history s ++ [strip u])));
        ("environment", env);
        ("item_info", item);
        ("face_result", load_face_result s);
        ("final_concession", final_concession_read s);
        ("history_max_concession", of_float (raised_max s));
        ("concession_amount", of_float (fst (priced item (raised_max s))));
        ("suggested_price", of_float (snd (priced item (raised_max s))))].
Proof.
  intro N. unfold log_turn. rewrite (eqb_empty_false _ N).
  destruct s as [e d ch it lh hm fr mt tl mw lw].
  unfold raised_max, history_max, final_concession_read, priced,
    _load_history_max_from_file, _save_history_max_to_file,
    load_face_result; simpl.
  destruct hm as [h|]; simpl;
    destruct (as_number _) as [fc|]; simpl;
    split_turn; reflexivity.
Qed.

Lemma log_turn_meta_quiet (u : string) (env item : json) (now : string)
    (s : state) :
  as_number (final_concession_read s) = None ->
  META (fst (log_turn u env item now s)) = META s.
Proof.
  intro Q0. unfold log_turn.
  destruct (String.eqb (strip u) ""); trivial.
  destruct s as [e d ch it lh hm fr mt tl mw lw].
  unfold final_concession_read, _load_history_max_from_file,
    _save_history_max_to_file, load_face_result in *; simpl in *.
  rewrite Q0.
  destruct hm as [h|]; simpl; split_turn; reflexivity.
Qed.

Lemma log_turn_history_max (u : string) (env item : json) (now : string)
    (s : state) :
  strip u <> "" ->
  history_max (fst (log_turn u env item now s)) = raised_max s.
Proof.
  intro N. unfold history_max at 1. rewrite (log_turn_max _ _ _ _ _ N).
  destruct (raised_max s) as [x|] eqn:E; trivial.
  unfold raised_max in E.
  destruct (as_number (final_concession_read s)) as [fc|] eqn:F.
  - destruct (history_max s); [destruct (Qltb _ _)|]; discriminate.
  - rewrite (log_turn_meta_quiet _ _ _ _ _ F).
    unfold history_max in E.
    destruct (_history_max_concession s); [discriminate | exact E].
Qed.


(** ** What a message does *)

Lemma is_str_true (v : json) (t : string) : is_str v t = true -> v = JStr t.
Proof.
  destruct v; simpl; try discriminate.
  intro H. apply String.eqb_eq in H. now subst.
Qed.

Lemma turn_text_strip (m : wire) (t : string) :
  turn_text m = Some t -> strip t = t /\ t <> "".
Proof.
  unfold turn_text. destruct m as [|[]]; try discriminate.
  destruct (is_str _ _); try discriminate.
  destruct (py_or _ _); try discriminate.
  destruct (String.eqb (strip s) "") eqn:E; try discriminate.
  intro H. injection H as <-. split.
  - apply strip_idem.
  - now apply String.eqb_neq.
Qed.

Lemma process_message_delivered (m : wire) (now : string) (s : state) :
  delivered now s m (fst (process_message m now s)).
Proof.
  destruct m as [|v]; [apply d_drop; reflexivity|].
  destruct v; try (apply d_drop; reflexivity).
  unfold process_message.
  destruct (is_str (dict_get "type" kv JNull) "env_update") eqn:E1.
  { assert (T : turn_text (Json (JObj kv)) = None).
    { unfold turn_text. now rewrite (is_str_true _ _ E1). }
    unfold handle_env_update.
    destruct (update_from_dict kv (env_state s)) as [e r] eqn:U.
    replace (set_env_state e s) with (after_env_update kv s)
      by (unfold after_env_update; now rewrite U).
    destruct r; now apply d_env. }
  destruct (is_str (dict_get "type" kv JNull) "user_utterance") eqn:E2.
  { unfold handle_user_utterance.
    destruct (py_or (dict_get "utterance" kv JNull) (JStr "")) eqn:P;
      try (apply d_drop; unfold turn_text; now rewrite E2, P).
    destruct (String.eqb (strip s0) "") eqn:B.
    - apply d_drop. unfold turn_text. now rewrite E2, P, B.
    - assert (T : turn_text (Json (JObj kv)) = Some (strip s0)).
      { unfold turn_text. now rewrite E2, P, B. }
      apply (d_turn now s) in T.
      unfold after_user_turn in T.
      destruct (user_turn (strip s0) now s) as [s1 record]. exact T. }
  assert (T : turn_text (Json (JObj kv)) = None).
  { unfold turn_text. now rewrite E2. }
  destruct (is_str (dict_get "type" kv JNull) "item_selected") eqn:E3.
  - unfold handle_item_selected.
    destruct (item_of kv) as [item|x] eqn:I.
    + now apply d_item.
    + now apply d_drop.
  - now apply d_drop.
Qed.

Lemma after_item_frame (item : json) (now : string) (s : state) :
  let s' := after_item item now s in
  dialogue_concession s' = dialogue_concession s /\
  env_state s' = env_state s /\
  current_item_info s' = item /\
  _history_max_concession s' = Some 0%Q.
Proof.
  destruct s as [e d ch it lh hm fr mt tl mw lw].
  unfold after_item, log_item_update, reset_history_for_new_item,
    _save_history_max_to_file; simpl.
  destruct mw, lw; simpl; tauto.
Qed.

Lemma after_user_turn_frame (t now : string) (s : state) :
  strip t <> "" ->
  let s' := after_user_turn t now s in
  dialogue_concession s' = py_min (dialogue_concession s + 5) 50 /\
  env_state s' = env_state s /\
  current_item_info s' = current_item_info s /\
  _history_max_concession s' = raised_max s /\
  history_max s' = raised_max s.
Proof.
  intros N s'.
  pose proof (log_turn_frame t (to_dict (env_state s)) (current_item_info s)
                now s) as F.
  pose proof (log_turn_max t (to_dict (env_state s)) (current_item_info s)
                now s N) as M.
  pose proof (log_turn_history_max t (to_dict (env_state s))
                (current_item_info s) now s N) as V.
  subst s'. unfold after_user_turn, user_turn.
  destruct (log_turn _ _ _ _ _) as [s1 record]. simpl in *.
  destruct F as (F1 & F2 & F3 & F4 & _).
  destruct s1; simpl in *. subst. unfold history_max in *; simpl in *. tauto.
Qed.

Lemma reset_history_max_concession_frame (s : state) :
  let s' := reset_history_max_concession s in
  dialogue_concession s' = dialogue_concession s /\
  env_state s' = env_state s /\
  current_item_info s' = current_item_info s /\
  _history_max_concession s' = Some 0%Q.
Proof.
  destruct s as [e d ch it lh hm fr mt tl mw lw].
  unfold reset_history_max_concession, _save_history_max_to_file; simpl.
  destruct mw; simpl; tauto.
Qed.

Lemma run_invariant (P : state -> Prop) :
  (forall ev s, P s -> P (step ev s)) ->
  forall evs s, P s -> P (run evs s).
Proof.
  intros Hstep evs. induction evs as [|ev evs IH]; intros s Hs; simpl.
  - exact Hs.
  - apply IH, Hstep, Hs.
Qed.

(** Case analysis on an event: the goal is left with the state [s'] after
    a message and the way it was [delivered]. *)
Ltac by_event ev s :=
  destruct ev as [?now ?m| |?f ?mw ?lw]; simpl;
  [ generalize (process_message_delivered m now s);
    generalize (fst (process_message m now s));
    let s' := fresh "s'" in
    let D := fresh "D" in
    intros s' D;
    destruct D as [?data ?T | ?m ?text ?T | ?data ?item ?T ?Ty ?I | ?m ?T]
  | | ].

(** ** The environment dials *)

Lemma py_int_range (c : Q) : (0 <= c)%Q -> (c <= 10)%Q -> dial_ok (py_int c).
Proof.
  destruct c as [n d]. unfold Qle, py_int, dial_ok; simpl. intros H0 H10.
  assert (0 <= n)%Z by lia.
  rewrite Z.quot_div_nonneg by lia. split.
  - apply Z.div_pos; lia.
  - apply Z.div_le_upper_bound; lia.
Qed.

Lemma clamp_dial_range (v : json) (z : Z) : clamp_dial v = Ok z -> dial_ok z.
Proof.
  unfold clamp_dial. destruct (as_number v) as [x|]; [|discriminate].
  intro H. injection H as <-.
  destruct (Qltb x 10) eqn:A; destruct (Qltb 0 _) eqn:B;
    try (apply py_int_range; [apply Qle_refl | discriminate]).
  - apply Qltb_true in A, B. apply py_int_range; now apply Qlt_le_weak.
  - apply py_int_range; [discriminate | apply Qle_refl].
Qed.

Lemma clamp_dial_int (z : Z) :
  clamp_dial (JInt z) = Ok (Z.max 0 (Z.min 10 z)).
Proof.
  unfold clamp_dial, as_number.
  assert (I : forall a, py_int (inject_Z a) = a).
  { intro a. unfold py_int; simpl. apply Z.quot_1_r. }
  assert (L : forall a b, Qltb (inject_Z a) (inject_Z b) = true <-> (a < b)%Z).
  { intros a b. rewrite Qltb_true. unfold Qlt; simpl. lia. }
  change 10%Q with (inject_Z 10). change 0%Q with (inject_Z 0).
  destruct (Qltb (inject_Z z) (inject_Z 10)) eqn:A.
  - apply L in A.
    destruct (Qltb (inject_Z 0) (inject_Z z)) eqn:B.
    + apply L in B. rewrite I. f_equal. lia.
    + rewrite I. f_equal.
      assert (~ (0 < z)%Z) by (intro C; apply L in C; congruence). lia.
  - assert (~ (z < 10)%Z) by (intro C; apply L in C; congruence).
    replace (Qltb (inject_Z 0) (inject_Z 10)) with true
      by (symmetry; apply L; lia).
    rewrite I. f_equal. lia.
Qed.

Definition env_ok (e : EnvironmentState) : Prop :=
  dials_in_range e /\ time_pressure e = 0%Z.

Lemma assign_dial_ok (key : string)
    (set : Z -> EnvironmentState -> EnvironmentState)
    (data : list (string * json)) (r : EnvironmentState * result unit)
    (tp : Z) :
  (forall z e, dial_ok z -> dials_in_range e -> dials_in_range (set z e)) ->
  (forall z e, time_pressure (set z e) = time_pressure e) ->
  dials_in_range (fst r) /\ time_pressure (fst r) = tp ->
  dials_in_range (fst (assign_dial key set data r)) /\
  time_pressure (fst (assign_dial key set data r)) = tp.
Proof.
  intros Hset Htp [Hr Ht]. destruct r as [e [[]|x]]; simpl in *; auto.
  destruct (dict_mem key data); simpl; auto.
  destruct (clamp_dial _) as [z|x] eqn:C; simpl; auto.
  split.
  - apply Hset; trivial. exact (clamp_dial_range _ _ C).
  - now rewrite Htp.
Qed.

Lemma update_from_dict_ok (data : list (string * json))
    (e : EnvironmentState) (tp : Z) :
  dials_in_range e /\ time_pressure e = tp ->
  dials_in_range (fst (update_from_dict data e)) /\
  time_pressure (fst (update_from_dict data e)) = tp.
Proof.
  intro H. unfold update_from_dict.
  repeat (apply assign_dial_ok;
          [ intros z e' Hz (A & B & C & D & E);
            unfold dials_in_range; simpl; tauto
          | reflexivity
          | ]).
  exact H.
Qed.




Lemma step_env_ok (ev : event) (s : state) :
  env_ok (env_state s) -> env_ok (env_state (step ev s)).
Proof.
  intro H. by_event ev s; trivial.
  - unfold after_env_update. destruct s; simpl in *.
    now apply update_from_dict_ok.
  - destruct (turn_text_strip _ _ T) as [St Ne].
    assert (N : strip text <> "") by now rewrite St.
    destruct (after_user_turn_frame text now s N) as (_ & -> & _). exact H.
  - destruct (after_item_frame item now s) as (_ & -> & _). exact H.
  - destruct (reset_history_max_concession_frame s) as (_ & -> & _). exact H.
Qed.


(** ** The item context and the running maximum *)






(** ** The price derivation *)




Instance spec_price_proper :
  Proper (Qeq ==> Qeq ==> Qeq ==> Qeq) spec_price.
Proof.
  intros a a' A b b' B c c' C. unfold spec_price.
  now rewrite A, B, C.
Qed.



(** ** Monotonicity of the running maximum *)







(** ** The dialogue concession *)

Lemma step_dialogue_concession (ev : event) (s : state) :
  dialogue_concession (step ev s) =
  if is_turn ev then py_min (dialogue_concession s + 5) 50
  else dialogue_concession s.
Proof.
  by_event ev s; try rewrite T; trivial.
  - destruct (turn_text_strip _ _ T) as [St Ne].
    assert (N : strip text <> "") by now rewrite St.
    apply (after_user_turn_frame text now s N).
  - apply (after_item_frame item now s).
  - apply reset_history_max_concession_frame.
Qed.

Lemma py_min_Qmin (a b : Q) : (py_min a b == Qmin a b)%Q.
Proof.
  unfold py_min. destruct (Qltb b a) eqn:E.
  - apply Qltb_true in E. symmetry. apply Q.min_r. now apply Qlt_le_weak.
  - apply Qltb_false in E. symmetry. now apply Q.min_l.
Qed.

Lemma count_succ (n : nat) :
  (inject_Z (Z.of_nat (S n)) == inject_Z (Z.of_nat n) + 1)%Q.
Proof. rewrite Nat2Z.inj_succ. unfold Z.succ. now rewrite inject_Z_plus. Qed.

Lemma count_nonneg (n : nat) : (0 <= inject_Z (Z.of_nat n))%Q.
Proof. change 0%Q with (inject_Z 0). rewrite <- Zle_Qle. lia. Qed.

Lemma run_dialogue_concession (evs : list event) (s : state) :
  (dialogue_concession s <= 50)%Q ->
  (dialogue_concession (run evs s) ==
   Qmin (dialogue_concession s + 5 * inject_Z (Z.of_nat (turns evs))) 50)%Q.
Proof.
  revert s. induction evs as [|ev evs IH]; intros s H.
  - change (run [] s) with s.
    change (inject_Z (Z.of_nat (turns []))) with 0%Q.
    rewrite Q.min_l; lra.
  - change (run (ev :: evs) s) with (run evs (step ev s)).
    pose proof (step_dialogue_concession ev s) as E.
    pose proof (count_nonneg (turns evs)) as C.
    unfold turns in *. simpl filter.
    destruct (is_turn ev).
    + assert (P := py_min_Qmin (dialogue_concession s + 5) 50).
      rewrite <- E in P.
      assert (B : (dialogue_concession (step ev s) <= 50)%Q).
      { rewrite P. apply Q.le_min_r. }
      rewrite (IH _ B). simpl List.length. rewrite count_succ.
      set (c := inject_Z (Z.of_nat (List.length (filter is_turn evs)))) in *.
      set (d := dialogue_concession s) in *.
      set (d' := dialogue_concession (step ev s)) in *.
      destruct (Q.min_spec (d + 5) 50) as [[L M]|[L M]];
        rewrite M in P; clear M;
        destruct (Q.min_spec (d' + 5 * c) 50) as [[L1 M1]|[L1 M1]];
        rewrite M1; clear M1;
        destruct (Q.min_spec (d + 5 * (c + 1)) 50) as [[L2 M2]|[L2 M2]];
        rewrite M2; clear M2; lra.
    + rewrite <- E in H. rewrite (IH _ H). now rewrite E.
Qed.





(** ** Prices in the wrong order *)



(** ** The fields of an item selection *)

(** C5. [handle_item_selected] reads the minimum price under the keys
    [MinPrice] and [min_price] only: the message with [maxPrice = 100] and
    a [minPrice] field stores [max_price = 100.0] and [min_price = 0.0]
    whatever [minPrice] holds, while the same value under [min_price] or
    [MinPrice] is stored. *)
Theorem min_price_camel_case_not_read :
  (forall v,
     item_of [("type", JStr "item_selected");
              ("itemId", JStr "A1");
              ("itemName", JStr "lamp");
              ("maxPrice", JInt 100);
              ("minPrice", v)]
     = Ok (item_dict "A1" "lamp" 100 0)) /\
  item_of [("type", JStr "item_selected");
           ("itemId", JStr "A1");
           ("itemName", JStr "lamp");
           ("maxPrice", JInt 100);
           ("min_price", JInt 20)]
  = Ok (item_dict "A1" "lamp" 100 20) /\
  item_of [("type", JStr "item_selected");
           ("itemId", JStr "A1");
           ("itemName", JStr "lamp");
           ("maxPrice", JInt 100);
           ("MinPrice", JInt 20)]
  = Ok (item_dict "A1" "lamp" 100 20).
Proof.
  repeat split; reflexivity.
Qed.

(** ** The turn record *)


(** ** Messages that raise *)

(** C7. A frame that is not JSON and a message of an unknown type are
    dropped.  A message whose field has the wrong type is not: an
    [item_selected] with a list as [maxPrice], a [user_utterance] with a
    number as utterance, a JSON value that is not an object and an
    [env_update] with a string as dial each leave [process_message] with an
    exception, which ends the receive loop of [client_handler] before the
    messages that follow and runs its [finally] block. *)
Theorem wrong_typed_fields_raise (now : string) (s : state) :
  process_message NotJson now s = (s, Ok None) /\
  process_message (Json (JObj [("type", JStr "ping")])) now s
  = (s, Ok None) /\
  process_message
    (Json (JObj [("type", JStr "item_selected");
                 ("maxPrice", JArr [JInt 1])])) now s
  = (s, Raise TypeError) /\
  process_message
    (Json (JObj [("type", JStr "user_utterance");
                 ("utterance", JInt 5)])) now s
  = (s, Raise AttributeError) /\
  process_message (Json (JArr [])) now s = (s, Raise AttributeError) /\
  snd (process_message
         (Json (JObj [("type", JStr "env_update");
                      ("noise_level", JStr "loud")])) now s)
  = Raise TypeError /\
  (forall rest,
     serve ((now, Json (JObj [("type", JStr "user_utterance");
                              ("utterance", JInt 5)])) :: rest) s
     = (s, Raise AttributeError)) /\
  (forall rest,
     client_handler
       ((now, Json (JObj [("type", JStr "user_utterance");
                          ("utterance", JInt 5)])) :: rest) s
     = (reset_history_max_concession s, Raise AttributeError)).
Proof.
  repeat split; reflexivity.
Qed.

(** ** A result file that cannot be read *)

Lemma handle_user_utterance_returns (data : list (string * json))
    (now u : string) (s : state) :
  dict_get "utterance" data JNull = JStr u ->
  exists ack, snd (handle_user_utterance data now s) = Ok ack.
Proof.
  intro E. unfold handle_user_utterance, py_or. rewrite E.
  destruct (truthy (JStr u)).
  - destruct (String.eqb (strip u) ""); [simpl; eauto|].
    destruct (user_turn (strip u) now s) as [s1 record]. simpl. eauto.
  - simpl. eauto.
Qed.

(** C9. When the result file is missing or cannot be decoded,
    [load_face_result] returns [None]; a handler given a string utterance
    returns normally; the record of the turn has [face_result] and
    [final_concession] both [None]; and the running maximum and the meta
    file are what they were before the turn. *)
Theorem unreadable_result_is_no_signal (s : state) (text now : string) :
  FACE_RESULT s = Missing \/ FACE_RESULT s = Corrupt ->
  load_face_result s = JNull /\
  (forall data u,
     dict_get "utterance" data JNull = JStr u ->
     exists ack, snd (handle_user_utterance data now s) = Ok ack) /\
  (strip text <> "" ->
   record_get (snd (user_turn text now s)) "face_result" = JNull /\
   record_get (snd (user_turn text now s)) "final_concession" = JNull) /\
  history_max (fst (user_turn text now s)) = history_max s /\
  META (fst (user_turn text now s)) = META s.
Proof.
  intro F.
  assert (L : load_face_result s = JNull).
  { unfold load_face_result. now destruct F as [-> | ->]. }
  assert (Q0 : as_number (final_concession_read s) = None).
  { unfold final_concession_read. now rewrite L. }
  split; trivial. split; [|split; [|split]].
  - intros data u. apply handle_user_utterance_returns.
  - intro N. unfold user_turn. rewrite (log_turn_record _ _ _ _ _ N).
    cbn. unfold final_concession_read. rewrite L. split; reflexivity.
  - unfold user_turn.
    destruct (String.eqb_spec (strip text) "") as [B|N].
    + now rewrite log_turn_blank.
    + rewrite (log_turn_history_max _ _ _ _ _ N).
      unfold raised_max. now rewrite Q0.
  - unfold user_turn. now apply log_turn_meta_quiet.
Qed.

(** ** Persistence of the running maximum *)

(** C10. When the meta file can be written, saving a running maximum [v]
    and loading it in a fresh process gives [v] again; the same holds for
    the value that a reset saves, which is 0. *)
Theorem meta_round_trip (v : Q) (s : state) :
  meta_writable s = true ->
  let saved := _save_history_max_to_file
                 (set__history_max_concession (Some v) s) in
  _history_max_concession (restart saved) = None /\
  _history_max_concession (_load_history_max_from_file (restart saved))
  = Some v /\
  history_max (restart saved) = Some v /\
  history_max (restart (reset_history_max_concession s)) = Some 0%Q /\
  history_max (restart (reset_history_for_new_item s)) = Some 0%Q.
Proof.
  intro W. destruct s as [e d ch it lh hm fr mt tl mw lw].
  simpl in W. subst mw. repeat split; reflexivity.
Qed.

(** ** The two histories and the turn log *)

Local Open Scope list_scope.

Lemma log_turn_effects (u : string) (env item : json) (now : string)
    (s : state) :
  strip u <> "" ->
  let s' := fst (log_turn u env item now s) in
  _conversation_history s' = _conversation_history s ++ [strip u] /\
  TURN_LOG s' =
  if log_writable s then TURN_LOG s ++ [snd (log_turn u env item now s)]
  else TURN_LOG s.
Proof.
  intro N. unfold log_turn. rewrite (eqb_empty_false _ N).
  destruct s as [e d ch it lh hm fr mt tl mw lw].
  unfold _load_history_max_from_file, _save_history_max_to_file,
    load_face_result; simpl.
  destruct mw, lw, hm as [h|]; simpl;
    destruct (as_number _) as [fc|]; simpl;
    split_turn; split; reflexivity.
Qed.

Lemma after_user_turn_effects (t now : string) (s : state) :
  strip t <> "" ->
  let s' := after_user_turn t now s in
  _conversation_history s' = _conversation_history s ++ [strip t] /\
  TURN_LOG s' =
  (if log_writable s then TURN_LOG s ++ [snd (user_turn t now s)]
   else TURN_LOG s) /\
  conversation_history s' =
  conversation_history s ++
  [JObj [("index", JInt (Z.of_nat (List.length (conversation_history s))));
         ("timestamp", JStr now);
         ("utterance", JStr t);
         ("environment", to_dict (env_state s))]] /\
  meta_writable s' = meta_writable s.
Proof.
  intros N s'.
  pose proof (log_turn_effects t (to_dict (env_state s))
                (current_item_info s) now s N) as [E1 E2].
  pose proof (log_turn_frame t (to_dict (env_state s)) (current_item_info s)
                now s) as (F1 & _ & F3 & _ & _ & F6 & _).
  subst s'. unfold after_user_turn, user_turn in *.
  destruct (log_turn _ _ _ _ _) as [s1 record]. simpl in *.
  unfold append_history. destruct s1; simpl in *. subst. tauto.
Qed.

Lemma after_item_effects (item : json) (now : string) (s : state) :
  let s' := after_item item now s in
  _conversation_history s' = [] /\
  conversation_history s' = conversation_history s /\
  meta_writable s' = meta_writable s /\
  META s' =
  (if meta_writable s
   then Content (JObj [("history_max_concession", JFloat 0)])
   else META s) /\
  TURN_LOG s' =
  if log_writable s
  then TURN_LOG s ++
       [JObj [("timestamp", JStr now);
              ("event", JStr "item_update");
              ("item_info", item);
              ("environment", to_dict (env_state s))]]
  else TURN_LOG s.
Proof.
  destruct s as [e d ch it lh hm fr mt tl mw lw].
  unfold after_item, log_item_update, reset_history_for_new_item,
    _save_history_max_to_file; simpl.
  destruct mw, lw; simpl; tauto.
Qed.

Lemma reset_effects (s : state) :
  let s' := reset_history_max_concession s in
  _conversation_history s' = _conversation_history s /\
  conversation_history s' = conversation_history s /\
  TURN_LOG s' = TURN_LOG s /\
  meta_writable s' = meta_writable s /\
  META s' =
  if meta_writable s
  then Content (JObj [("history_max_concession", JFloat 0)])
  else META s.
Proof.
  destruct s as [e d ch it lh hm fr mt tl mw lw].
  unfold reset_history_max_concession, _save_history_max_to_file; simpl.
  destruct mw; simpl; tauto.
Qed.

Lemma turn_nonblank (m : wire) (t : string) :
  turn_text m = Some t -> strip t <> "".
Proof. intro T. destruct (turn_text_strip _ _ T) as [-> N]. exact N. Qed.

Lemma step_log_grows (ev : event) (s : state) :
  exists more,
    TURN_LOG (step ev s) = TURN_LOG s ++ more /\ (List.length more <= 1)%nat.
Proof.
  by_event ev s; try (exists []; rewrite app_nil_r; split; [reflexivity|]; simpl; lia).
  - destruct (after_user_turn_effects text now s (turn_nonblank _ _ T))
      as (_ & -> & _).
    destruct (log_writable s).
    + eexists. split; [reflexivity | simpl; lia].
    + exists []. rewrite app_nil_r. split; [reflexivity | simpl; lia].
  - destruct (after_item_effects item now s) as (_ & _ & _ & _ & ->).
    destruct (log_writable s).
    + eexists. split; [reflexivity | simpl; lia].
    + exists []. rewrite app_nil_r. split; [reflexivity | simpl; lia].
  - destruct (reset_effects s) as (_ & _ & -> & _).
    exists []. rewrite app_nil_r. split; [reflexivity | simpl; lia].
Qed.

(** X1. The turn log is append-only: over any trace of events the log
    before is a prefix of the log after, and at most one line is added for
    each event. *)
Theorem turn_log_append_only (evs : list event) (s : state) :
  exists more,
    TURN_LOG (run evs s) = TURN_LOG s ++ more /\
    (List.length more <= List.length evs)%nat.
Proof.
  revert s. induction evs as [|ev evs IH]; intro s.
  - exists []. simpl. now rewrite app_nil_r.
  - destruct (step_log_grows ev s) as (m1 & E1 & L1).
    destruct (IH (step ev s)) as (m2 & E2 & L2).
    exists (m1 ++ m2). split.
    + change (run (ev :: evs) s) with (run evs (step ev s)).
      now rewrite E2, E1, app_assoc.
    + rewrite length_app. simpl. lia.
Qed.









(** ** The result file *)


(** ** Recovery after a restart *)

Lemma log_turn_meta (u : string) (env item : json) (now : string)
    (s : state) :
  strip u <> "" ->
  META (fst (log_turn u env item now s)) =
  match as_number (final_concession_read s) with
  | Some fc =>
      if match history_max s with
         | None => true
         | Some h => Qltb h fc
         end
      then if meta_writable s
           then Content (JObj [("history_max_concession", JFloat fc)])
           else META s
      else META s
  | None => META s
  end.
Proof.
  intro N. unfold log_turn. rewrite (eqb_empty_false _ N).
  destruct s as [e d ch it lh hm fr mt tl mw lw].
  unfold history_max, final_concession_read, _load_history_max_from_file,
    _save_history_max_to_file, load_face_result; simpl.
  destruct mw, lw, hm as [h|]; simpl;
    destruct (as_number _) as [fc|]; simpl;
    split_turn; reflexivity.
Qed.

Lemma persisted_view (s : state) :
  persisted s -> meta_value (META s) = history_max s.
Proof.
  unfold persisted, history_max.
  intros [P|P]; rewrite P; trivial. now destruct (_history_max_concession s).
Qed.

Lemma log_turn_persisted (u : string) (env item : json) (now : string)
    (s : state) :
  meta_writable s = true ->
  persisted s -> persisted (fst (log_turn u env item now s)).
Proof.
  intros W P.
  destruct (String.eqb_spec (strip u) "") as [B|N].
  { now rewrite log_turn_blank. }
  right. rewrite (log_turn_max _ _ _ _ _ N), (log_turn_meta _ _ _ _ _ N).
  unfold raised_max. rewrite W.
  destruct (as_number (final_concession_read s)) as [fc|].
  - destruct (history_max s) as [h|] eqn:H; [|reflexivity].
    destruct (Qltb h fc); [reflexivity|].
    rewrite <- H. now apply persisted_view.
  - now apply persisted_view.
Qed.

Lemma after_user_turn_store (t now : string) (s : state) :
  _history_max_concession (after_user_turn t now s) =
  _history_max_concession (fst (user_turn t now s)) /\
  META (after_user_turn t now s) = META (fst (user_turn t now s)).
Proof.
  unfold after_user_turn.
  destruct (user_turn t now s) as [s1 r]. now destruct s1.
Qed.

Lemma step_on_disk (ev : event) (s : state) :
  keeps_meta_writable ev = true -> on_disk s -> on_disk (step ev s).
Proof.
  unfold on_disk.
  by_event ev s; intros K [W P]; try (split; assumption).
  - destruct (after_user_turn_effects text now s (turn_nonblank _ _ T))
      as (_ & _ & _ & Wm).
    destruct (after_user_turn_store text now s) as [E1 E2].
    split; [congruence|].
    pose proof (log_turn_persisted text (to_dict (env_state s))
                  (current_item_info s) now s W P) as P'.
    unfold persisted in *. unfold user_turn in *. now rewrite E1, E2.
  - destruct (after_item_effects item now s) as (_ & _ & Wm & M & _).
    destruct (after_item_frame item now s) as (_ & _ & _ & C).
    split; [congruence|]. right. rewrite M, C, W. reflexivity.
  - destruct (reset_effects s) as (_ & _ & _ & Wm & M).
    destruct (reset_history_max_concession_frame s) as (_ & _ & _ & C).
    split; [congruence|]. right. rewrite M, C, W. reflexivity.
Qed.

(** X6. As long as the meta file stays writable, a restart loses nothing:
    after any trace of events from a fresh process, a new process started
    over the files left behind loads the same running maximum that the old
    process was using. *)
Theorem restart_recovers_history_max (face meta : file) (log : list json)
    (lw : bool) (evs : list event) :
  forallb keeps_meta_writable evs = true ->
  let s := run evs (boot face meta log true lw) in
  history_max (restart s) = history_max s.
Proof.
  intros K s.
  assert (I : on_disk s).
  { subst s. assert (I0 : on_disk (boot face meta log true lw)).
    { split; [reflexivity | now left]. }
    revert I0 K. generalize (boot face meta log true lw).
    induction evs as [|ev evs IH]; intros s0 I0 K; [exact I0|].
    cbn [forallb] in K. apply andb_prop in K. destruct K as [K1 K2].
    change (run (ev :: evs) s0) with (run evs (step ev s0)).
    apply IH; trivial. now apply step_on_disk. }
  destruct I as [_ [P|P]]; unfold history_max, restart; simpl.
  - now rewrite P.
  - rewrite P. now destruct (_history_max_concession s).
Qed.

(** ** More on prices *)

Lemma step_item_fixed (ev : event) (s : state) :
  is_selection ev = false ->
  current_item_info (step ev s) = current_item_info s.
Proof.
  by_event ev s; intro NS; trivial.
  - apply (after_user_turn_frame text now s (turn_nonblank _ _ T)).
  - congruence.
  - apply reset_history_max_concession_frame.
Qed.







(** ** More on the environment *)

Lemma update_from_dict_idem (data : list (string * json))
    (e : EnvironmentState) :
  update_from_dict data (fst (update_from_dict data e)) =
  update_from_dict data e.
Proof.
  unfold update_from_dict, assign_dial. destruct e.
  destruct (dict_mem "noise_level" data), (dict_mem "crowd_density" data),
    (dict_mem "lighting_level" data), (dict_mem "visual_distractions" data);
    destruct (clamp_dial (dict_get "noise_level" data JNull));
    destruct (clamp_dial (dict_get "crowd_density" data JNull));
    destruct (clamp_dial (dict_get "lighting_level" data JNull));
    destruct (clamp_dial (dict_get "visual_distractions" data JNull));
    reflexivity.
Qed.

Lemma handle_env_update_eq (data : list (string * json)) (s : state) :
  handle_env_update data s =
  (set_env_state (fst (update_from_dict data (env_state s))) s,
   match snd (update_from_dict data (env_state s)) with
   | Ok _ =>
       Ok (Some (JObj [("type", JStr "env_received");
                       ("status", JStr "ok");
                       ("env",
                        to_dict (fst (update_from_dict data (env_state s))))]))
   | Raise x => Raise x
   end).
Proof.
  unfold handle_env_update.
  destruct (update_from_dict data (env_state s)) as [e [u|x]];
    destruct s; reflexivity.
Qed.

(** X10. An environment update is idempotent: handling the same
    [env_update] data a second time gives the same state and the same
    outcome (acknowledgement or exception) as handling it once. *)
Theorem env_update_idempotent (data : list (string * json)) (s : state) :
  handle_env_update data (fst (handle_env_update data s)) =
  handle_env_update data s.
Proof.
  rewrite (handle_env_update_eq data s). cbn [fst].
  rewrite handle_env_update_eq.
  set (e := fst (update_from_dict data (env_state s))).
  replace (env_state (set_env_state e s)) with e by now destruct s.
  unfold e. rewrite update_from_dict_idem. fold e.
  replace (set_env_state e (set_env_state e s)) with (set_env_state e s)
    by now destruct s.
  reflexivity.
Qed.

Lemma reachable_env_ok (s : state) : reachable s -> env_ok (env_state s).
Proof.
  intros (face & meta & log & mw & lw & evs & ->).
  apply (run_invariant (fun s => env_ok (env_state s))).
  - apply step_env_ok.
  - unfold env_ok, dials_in_range, dial_ok; simpl. lia.
Qed.

(** X11. In every state the server can reach, sending the current
    environment snapshot (the [env] of an acknowledgement) back as an
    update changes nothing: the state is the same and the acknowledgement
    carries the same snapshot, its [time_pressure] field being ignored. *)
Theorem env_snapshot_replay (s : state) (kv : list (string * json)) :
  reachable s ->
  to_dict (env_state s) = JObj kv ->
  handle_env_update kv s =
  (s, Ok (Some (JObj [("type", JStr "env_received");
                      ("status", JStr "ok");
                      ("env", to_dict (env_state s))]))).
Proof.
  intros R E. destruct (reachable_env_ok s R) as [(A & B & C & D & _) _].
  unfold to_dict in E. injection E as <-.
  unfold handle_env_update, update_from_dict, assign_dial.
  cbn [dict_mem dict_get String.eqb Ascii.eqb Bool.eqb].
  rewrite !clamp_dial_int.
  unfold dial_ok in *.
  rewrite !Z.max_r, !Z.min_r by lia.
  destruct s as [[n c l v t] d ch it lh hm fr mt tl mw lw]. reflexivity.
Qed.

Lemma handle_user_utterance_frame (data : list (string * json))
    (now : string) (s : state) :
  env_state (fst (handle_user_utterance data now s)) = env_state s /\
  current_item_info (fst (handle_user_utterance data now s))
  = current_item_info s.
Proof.
  unfold handle_user_utterance.
  destruct (py_or _ _); auto.
  destruct (String.eqb (strip s0) ""); auto.
  pose proof (log_turn_frame (strip s0) (to_dict (env_state s))
                (current_item_info s) now s) as (F1 & _ & _ & F4 & _).
  unfold user_turn. destruct (log_turn _ _ _ _ _) as [s1 r]. simpl in *.
  destruct s1; simpl in *. now subst.
Qed.

Lemma handle_item_selected_frame (data : list (string * json))
    (now : string) (s : state) :
  env_state (fst (handle_item_selected data now s)) = env_state s.
Proof.
  unfold handle_item_selected. destruct (item_of data) as [item|]; trivial.
  apply (after_item_frame item now s).
Qed.

Lemma step_conversation_history (ev : event) (s : state) :
  is_turn ev = false ->
  conversation_history (step ev s) = conversation_history s.
Proof.
  by_event ev s; try rewrite T; intro NT; trivial.
  - discriminate.
  - apply after_item_effects.
  - apply reset_effects.
Qed.

Lemma reachable_dialogue_concession (s : state) :
  reachable s ->
  (0 <= dialogue_concession s)%Q /\ (dialogue_concession s <= 50)%Q.
Proof.
  intros (face & meta & log & mw & lw & evs & ->).
  rewrite run_dialogue_concession by (simpl; lra).
  simpl dialogue_concession. rewrite Qplus_0_l.
  pose proof (count_nonneg (turns evs)).
  split; [apply Q.min_glb; lra | apply Q.le_min_r].
Qed.

(** X12. Each global has one kind of writer: only an [env_update] message
    changes the environment state, only an [item_selected] message changes
    the item context, and only a user turn changes the dialogue concession
    and the server's conversation history; a disconnect or an item
    selection leaves the dialogue concession as it is.  In every reachable
    state the dialogue concession is between 0 and 50. *)
Theorem single_writers :
  (forall ev s,
     is_env_update ev = false -> env_state (step ev s) = env_state s) /\
  (forall ev s,
     is_selection ev = false ->
     current_item_info (step ev s) = current_item_info s) /\
  (forall ev s,
     is_turn ev = false ->
     dialogue_concession (step ev s) = dialogue_concession s /\
     conversation_history (step ev s) = conversation_history s) /\
  (forall s,
     reachable s ->
     (0 <= dialogue_concession s)%Q /\ (dialogue_concession s <= 50)%Q).
Proof.
  split; [|split; [exact step_item_fixed|split]].
  - intros [now [|v]| |f mw lw] s NE; trivial.
    + destruct v; trivial. cbn [is_env_update] in NE.
      cbn [step]. unfold process_message. rewrite NE.
      destruct (is_str _ "user_utterance").
      * apply handle_user_utterance_frame.
      * destruct (is_str _ "item_selected"); trivial.
        apply handle_item_selected_frame.
    + apply reset_history_max_concession_frame.
  - intros ev s NT. split.
    + rewrite step_dialogue_concession. now rewrite NT.
    + now apply step_conversation_history.
  - exact reachable_dialogue_concession.
Qed.

(** ** Acknowledgements *)


Lemma item_of_stripped (data : list (string * json)) (item : json) :
  item_of data = Ok item ->
  exists id name mx mn,
    item = item_dict id name mx mn /\ strip name = name.
Proof.
  unfold item_of, bind.
  destruct (py_or (py_or (dict_get "itemName" data JNull) _) _);
    try discriminate.
  destruct (float _) as [mx|]; try discriminate.
  destruct (float _) as [mn|]; try discriminate.
  intro H. injection H as <-. unfold item_dict.
  do 4 eexists. split; [reflexivity | apply strip_idem].
Qed.

(** X14. An item selection that completes stores a dict of the four
    fields whose name is stripped, acknowledges with that same dict, and,
    when the turn log can be written, appends one [item_update] line that
    carries the same dict and the current environment; it leaves the
    dialogue concession and the environment unchanged. *)
Theorem item_selection_agrees (data : list (string * json)) (now : string)
    (s : state) (ack : option json) :
  snd (handle_item_selected data now s) = Ok ack ->
  let s' := fst (handle_item_selected data now s) in
  exists id name mx mn,
    current_item_info s' = item_dict id name mx mn /\
    strip name = name /\
    ack = Some (JObj [("type", JStr "item_received");
                      ("status", JStr "ok");
                      ("item", item_dict id name mx mn)]) /\
    TURN_LOG s' =
    (if log_writable s
     then TURN_LOG s ++
          [JObj [("timestamp", JStr now);
                 ("event", JStr "item_update");
                 ("item_info", item_dict id name mx mn);
                 ("environment", to_dict (env_state s))]]
     else TURN_LOG s) /\
    dialogue_concession s' = dialogue_concession s /\
    env_state s' = env_state s.
Proof.
  unfold handle_item_selected.
  destruct (item_of data) as [item|x] eqn:I; [|discriminate].
  destruct (item_of_stripped _ _ I) as (id & name & mx & mn & -> & St).
  cbn [fst snd]. intro H. injection H as <-.
  exists id, name, mx, mn.
  destruct s as [e d ch it lh hm fr mt tl mw lw].
  unfold log_item_update, reset_history_for_new_item,
    _save_history_max_to_file; simpl.
  destruct mw, lw; simpl; repeat split; trivial.
Qed.

(** ** The payload of the reply generator *)




End Negotiation.

(** ** Closed instances *)








Lemma unreadable_result_is_no_signal_witness :
  let s := set_outside Corrupt true true
             (run str_unused float_unused agent_down
                [select_lamp; worker_reports 25;
                 utterance_message ("10:01:00", "how much?")] fresh_disk) in
  let turn := user_turn float_unused "too expensive" "10:02:00" s in
  record_get (snd turn) "final_concession" = JNull /\
  history_max (fst turn) = Some 25%Q /\
  META (fst turn) = META s.
Proof.
  intros s turn.
  destruct (unreadable_result_is_no_signal float_unused agent_down
              s "too expensive" "10:02:00")
    as (_ & _ & Rec & Hm & Mt).
  - right. reflexivity.
  - split; [|split].
    + apply Rec. discriminate.
    + subst turn. rewrite Hm. reflexivity.
    + exact Mt.
Defined.

Lemma meta_round_trip_witness :
  history_max
    (restart (_save_history_max_to_file
                (set__history_max_concession (Some (37 # 2)) fresh_disk)))
  = Some (37 # 2).
Proof.
  apply (meta_round_trip (37 # 2) fresh_disk). reflexivity.
Defined.

(** ** Scenarios of the specification, evaluated *)

(** Item selected, no result file, one utterance: the price is [maxPrice]
    and [final_concession] is [None]. *)
Example first_turn_without_signal :
  let s := run str_unused float_unused agent_down [select_lamp] fresh_disk in
  let record := snd (user_turn float_unused "how much?" "10:01:00" s) in
  record_get record "final_concession" = JNull /\
  exists p, record_get record "suggested_price" = JFloat p /\ (p == 100)%Q.
Proof.
  vm_compute. split; [reflexivity|]. eexists. split; reflexivity.
Qed.

(** A running maximum of 150 clamps the price at [minPrice]. *)
Example price_clamped_at_min :
  let s := run str_unused float_unused agent_down
             [select_lamp; worker_reports 150] fresh_disk in
  record_get (snd (user_turn float_unused "how much?" "10:01:00" s))
    "suggested_price" = JFloat 20.
Proof. reflexivity. Qed.

(** A disconnect keeps the dialogue concession and resets the maximum. *)
Example disconnect_keeps_dialogue_concession :
  let s := run str_unused float_unused agent_down
             [select_lamp; worker_reports 25;
              utterance_message ("10:01:00", "how much?"); Disconnect]
             fresh_disk in
  (dialogue_concession s == 5)%Q /\ _history_max_concession s = Some 0%Q.
Proof. split; reflexivity. Qed.

(** ** Closed instances of the further properties *)




Lemma restart_recovers_history_max_witness :
  let s := run str_unused float_unused agent_down
             [select_lamp; worker_reports 25;
              utterance_message ("10:01:00", "how much?")]
             (boot Missing Corrupt [] true false) in
  history_max (restart s) = history_max s.
Proof.
  intro s.
  apply (restart_recovers_history_max str_unused float_unused agent_down).
  reflexivity.
Defined.




Lemma env_snapshot_replay_witness :
  let s := run str_unused float_unused agent_down
             [Message "10:00:00"
                (Json (JObj [("type", JStr "env_update");
                             ("noise_level", JInt 14);
                             ("lighting_level", JFloat (7 # 2))]))]
             fresh_disk in
  fst (handle_env_update
         [("noise_level", JInt 10); ("crowd_density", JInt 0);
          ("lighting_level", JInt 3); ("visual_distractions", JInt 0);
          ("time_pressure", JInt 0)] s) = s.
Proof.
  intro s.
  rewrite (env_snapshot_replay str_unused float_unused agent_down s).
  - reflexivity.
  - exists Missing, Missing, [], true, true,
      [Message "10:00:00"
         (Json (JObj [("type", JStr "env_update");
                      ("noise_level", JInt 14);
                      ("lighting_level", JFloat (7 # 2))]))].
    reflexivity.
  - reflexivity.
Defined.

Lemma single_writers_witness :
  let s := run str_unused float_unused agent_down
             [utterance_message ("10:01:00", "how much?"); select_lamp;
              Disconnect] fresh_disk in
  (0 <= dialogue_concession s)%Q /\ (dialogue_concession s <= 50)%Q.
Proof.
  intro s.
  apply (proj2 (proj2 (proj2
           (single_writers str_unused float_unused agent_down)))).
  exists Missing, Missing, [], true, true,
    [utterance_message ("10:01:00", "how much?"); select_lamp; Disconnect].
  reflexivity.
Defined.


Lemma item_selection_agrees_witness :
  let data := [("type", JStr "item_selected");
               ("itemId", JStr "A1");
               ("itemName", JStr "  lamp ");
               ("maxPrice", JInt 100);
               ("min_price", JInt 20)] in
  exists id name mx mn,
    current_item_info
      (fst (handle_item_selected str_unused float_unused data
              "10:00:00" fresh_disk))
    = item_dict id name mx mn /\ strip name = name.
Proof.
  intro data.
  destruct (item_selection_agrees str_unused float_unused data "10:00:00"
              fresh_disk
              (Some (JObj [("type", JStr "item_received");
                           ("status", JStr "ok");
                           ("item", item_dict "A1" "lamp" 100 20)]))
              eq_refl)
    as (id & name & mx & mn & I & St & _).
  exists id, name, mx, mn. split; [exact I | exact St].
Defined.


